(** * Configuration-variable graph vertices and module-call addresses

    A shallow embedding of two Go source files:

    - [addrs/module_call.go]: the address value types [ModuleCall],
      [ModuleCallInstance], [ModuleCallOutput] and their [String] methods;
    - the [terraform] package file that declares [GraphNodeConfigVariable]
      and [GraphNodeConfigVariableFlat].

    Go strings are [string]; slices that are only read are [list]; a nilable
    pointer that the code tests against [nil] is an [option]; a Go [map] is a
    [gmap]; an interface that the code queries with a type assertion is an
    optional capability. *)

From stdpp Require Import gmap strings list fin_maps.
From Stdlib Require DecimalString.

Open Scope string_scope.

(** ** Package addrs *)

Module addrs.

(** [InstanceKey] is an interface declared in another file of the package:
    its implementations (integer and string keys) are not needed here, only
    that a key renders itself through [String()], which is what the [%s]
    verb of [fmt.Sprintf] calls.  The class plays the role of the
    interface; [NoKey] is the nil interface value. *)
Class InstanceKeyImpl (K : Type) := key_String : K → string.

Definition InstanceKey (K : Type) : Type := option K.
Definition NoKey {K : Type} : InstanceKey K := None.

Module ModuleCall.

Record t := mk { Name : string }.

(* func (c ModuleCall) String() string *)
Definition String (c : t) : string := "module." +:+ Name c.

End ModuleCall.

Module ModuleCallInstance.
Section keyed.
Context {K : Type} `{!InstanceKeyImpl K}.

Record t := mk { Call : ModuleCall.t; Key : InstanceKey K }.

(* func (c ModuleCallInstance) String() string
   The comparison [c.Key == NoKey] is the match on [None]. *)
Definition String (c : t) : string :=
  match Key c with
  | None => ModuleCall.String (Call c)
  | Some k => "module." +:+ ModuleCall.Name (Call c) +:+ key_String k
  end.

End keyed.
Arguments t K : clear implicits.
End ModuleCallInstance.

Module ModuleCallOutput.
Section keyed.
Context {K : Type} `{!InstanceKeyImpl K}.

Record t := mk { Call : ModuleCallInstance.t K; Name : string }.

(* func (co ModuleCallOutput) String() string *)
Definition String (co : t) : string :=
  ModuleCallInstance.String (Call co) +:+ "." +:+ Name co.

End keyed.
Arguments t K : clear implicits.
End ModuleCallOutput.

(* func (c ModuleCall) Instance(key InstanceKey) ModuleCallInstance *)
Definition Instance {K : Type} (c : ModuleCall.t) (key : InstanceKey K)
  : ModuleCallInstance.t K :=
  {| ModuleCallInstance.Call := c; ModuleCallInstance.Key := key |}.

(* func (c ModuleCallInstance) Output(name string) ModuleCallOutput *)
Definition Output {K : Type} (c : ModuleCallInstance.t K) (name : string)
  : ModuleCallOutput.t K :=
  {| ModuleCallOutput.Call := c; ModuleCallOutput.Name := name |}.

(** The composite literal [ModuleCall{Name: n}]. *)
Definition Call_ (n : string) : ModuleCall.t := ModuleCall.mk n.

End addrs.

(** ** Package terraform *)

Module terraform.

(** *** Types declared outside the two source files

    The vertex file imports its data from packages [config], [config/module]
    and [dag] and from sibling files of package [terraform].  Their types are
    kept abstract: nothing below inspects them. *)
Class Externals := {
  (* config.InterpolatedVariable: one reference found in a raw value *)
  InterpolatedVariable : Type;
  (* the unresolved expression tree carried by a config.RawConfig *)
  RawBody : Type;
  (* *module.Tree *)
  Tree : Type;
  (* *ResourceConfig: a resolved configuration value *)
  ResourceConfig : Type;
  (* interface{}: the value of one variable *)
  Val : Type;
  (* error *)
  Err : Type;
}.

(** Helper functions of package [terraform] that the vertex file calls and
    that live in sibling files: the translation of a reference into a
    dependency name (the empty string when there is none) and the rendering
    of a module path as a name prefix.  Both are parameters. *)
Class Helpers `{Externals} := {
  varNameForVar : InterpolatedVariable → string;
  modulePrefixStr : list string → string;
}.

(** Modelled from the spec: [modulePrefixList] is defined in a sibling file.
    Sections 3 and 4.5: each dependency name is prefixed by the given prefix,
    in the [<prefix>.<name>] shape used for the flattened name; with the
    empty prefix the names pass through unchanged. *)
Definition modulePrefixList (result : list string) (prefix : string)
  : list string :=
  if String.eqb prefix "" then result
  else (λ v, prefix +:+ "." +:+ v) <$> result.

(** [config.Variable]: only the declared name is read. *)
Record config_Variable := { Name : string }.

(** [config.RawConfig]: [Variables] is a Go map from the reference's text to
    the reference. *)
Record RawConfig `{Externals} := {
  Raw : RawBody;
  Variables : gmap string InterpolatedVariable;
}.

(** [GraphNodeCountDependent]: the capability interface with the single
    method [CountDependentOn() []string]. *)
Record GraphNodeCountDependent := { CountDependentOn : list string }.

(** [dag.Vertex] is [interface{}].  [DestroyEdgeInclude] observes two things
    of a vertex: its display name (for the debug log only) and whether its
    dynamic type implements [GraphNodeCountDependent], which is what the
    type assertion [v.(GraphNodeCountDependent)] tests. *)
Record Vertex := {
  VertexName : string;
  asGraphNodeCountDependent : option GraphNodeCountDependent;
}.

(** *** Evaluation nodes

    [EvalTree] builds values of node types declared in sibling files.  The
    fields that point to the two locals of [EvalTree] ([Output: &config],
    [Config: &config], [VariableValues: variables], [Variables: variables])
    are not constructor arguments: the locals are the [config] and
    [variables] components of the run state below, shared by all the steps of
    one pipeline.  [Module: &n.Module] is the vertex's module name. *)
#[warnings="-register-all"] Inductive EvalNode `{Externals} :=
| EvalNoop
| EvalSequence (Nodes : list EvalNode)
| EvalInterpolate (Config : RawConfig)
| EvalVariableBlock
| EvalCoerceMapVariable (ModulePath : list string) (ModuleTree : Tree)
| EvalTypeCheckVariable (ModulePath : list string) (ModuleTree : Tree)
| EvalSetVariables (Module_ : string).

Module GraphNodeConfigVariable.
Section vertex.
Context `{Helpers}.

(** The struct.  [Variable] and [Module] are reserved words, hence the
    trailing underscore.  [Value] is the nilable [*config.RawConfig]. *)
Record t := mk {
  Variable_ : config_Variable;
  Module_ : string;
  Value : option RawConfig;
  ModuleTree : Tree;
  ModulePath : list string;
}.

(* fmt.Sprintf("var.%s", n.Variable.Name) *)
Definition Name (n : t) : string := "var." +:+ Name (Variable_ n).

Definition DependableName (n : t) : list string := [Name n].

Definition RemoveIfNotTargeted (n : t) : bool := true.

(** The body of [for _, v := range vars], with [result] as accumulator, over
    the entries in the order in which the range statement visits them. *)
Fixpoint DependentOn_range (vars : list (string * InterpolatedVariable))
  (result : list string) : list string :=
  match vars with
  | [] => result
  | (_, v) :: vars' =>
      let vn := varNameForVar v in
      if String.eqb vn "" then DependentOn_range vars' result
      else DependentOn_range vars' (result ++ [vn])
  end.

(** [DependentOn] with the visiting order of the map made explicit: Go does
    not fix the order in which [range] visits a map. *)
Definition DependentOn_visiting
  (order : gmap string InterpolatedVariable →
           list (string * InterpolatedVariable))
  (n : t) : list string :=
  match Value n with
  | None => []
  | Some rc => DependentOn_range (order (Variables rc)) []
  end.

Definition DependentOn (n : t) : list string :=
  DependentOn_visiting map_to_list n.

Definition VariableName (n : t) : string :=
  terraform.Name (Variable_ n).

(** The inner loop [for _, d2 := range n.DependableName()] for one [d];
    [true] is the early [return true]. *)
Fixpoint DestroyEdgeInclude_inner (d : string) (names : list string) : bool :=
  match names with
  | [] => false
  | d2 :: names' =>
      if String.eqb d d2 then true else DestroyEdgeInclude_inner d names'
  end.

(** The outer loop [for _, d := range cv.CountDependentOn()]. *)
Fixpoint DestroyEdgeInclude_outer (ds names : list string) : bool :=
  match ds with
  | [] => false
  | d :: ds' =>
      if DestroyEdgeInclude_inner d names then true
      else DestroyEdgeInclude_outer ds' names
  end.

(** The calls to [log.Printf] write to the debug log and do not take part in
    the decision. *)
Definition DestroyEdgeInclude (n : t) (v : Vertex) : bool :=
  match asGraphNodeCountDependent v with
  | None => false
  | Some cv => DestroyEdgeInclude_outer (CountDependentOn cv) (DependableName n)
  end.

Definition EvalTree (n : t) : EvalNode :=
  match Value n with
  | None => EvalNoop
  | Some value =>
      EvalSequence
        [ EvalInterpolate value;
          EvalVariableBlock;
          EvalCoerceMapVariable (ModulePath n) (ModuleTree n);
          EvalTypeCheckVariable (ModulePath n) (ModuleTree n);
          EvalSetVariables (Module_ n) ]
  end.

End vertex.
Arguments t {_}.
End GraphNodeConfigVariable.

Module GraphNodeConfigVariableFlat.
Section flat.
Context `{Helpers}.

(** The struct: the embedded [*GraphNodeConfigVariable] and the path. *)
Record t := mk {
  GraphNodeConfigVariable_ : GraphNodeConfigVariable.t;
  PathValue : list string;
}.

(* fmt.Sprintf("%s.%s", modulePrefixStr(n.PathValue),
                        n.GraphNodeConfigVariable.Name()) *)
Definition Name (n : t) : string :=
  modulePrefixStr (PathValue n) +:+ "." +:+
  GraphNodeConfigVariable.Name (GraphNodeConfigVariable_ n).

Definition DependableName (n : t) : list string := [Name n].

(** [n.PathValue[:len(n.PathValue)-1]] is [take (length p - 1) p]; the guard
    [len(n.PathValue) > 2] keeps the slice expression in range. *)
Definition DependentOn (n : t) : list string :=
  let prefix :=
    if (2 <? length (PathValue n))%nat
    then modulePrefixStr (take (length (PathValue n) - 1) (PathValue n))
    else "" in
  modulePrefixList
    (GraphNodeConfigVariable.DependentOn (GraphNodeConfigVariable_ n))
    prefix.

(** The [nil] slice is the empty list. *)
Definition Path (n : t) : list string :=
  if (2 <? length (PathValue n))%nat
  then take (length (PathValue n) - 1) (PathValue n)
  else [].

(** Methods that the flattened struct does not declare are promoted from the
    embedded pointer: the call [f.DestroyEdgeInclude(v)] runs the base method
    with the embedded vertex as receiver, so that the [n.DependableName()]
    inside it is the base one. *)
Definition DestroyEdgeInclude (n : t) (v : Vertex) : bool :=
  GraphNodeConfigVariable.DestroyEdgeInclude (GraphNodeConfigVariable_ n) v.

Definition RemoveIfNotTargeted (n : t) : bool :=
  GraphNodeConfigVariable.RemoveIfNotTargeted (GraphNodeConfigVariable_ n).

End flat.
Arguments t {_}.
End GraphNodeConfigVariableFlat.

(* func (n *GraphNodeConfigVariable) Flatten(p []string) (dag.Vertex, error)
   The error is always nil, hence the [inr]. *)
Definition Flatten `{Helpers} (n : GraphNodeConfigVariable.t) (p : list string)
  : Err + GraphNodeConfigVariableFlat.t :=
  inr {| GraphNodeConfigVariableFlat.GraphNodeConfigVariable_ := n;
         GraphNodeConfigVariableFlat.PathValue := p |}.

(** *** Running a pipeline

    The [Eval] methods of the node types are in sibling files.  The steps
    that resolve, extract, coerce and check values belong to external
    collaborators and are parameters: each either fails with an error or
    yields its result. *)
Class Collaborators `{Externals} := {
  (* (expr, symbol table) -> resolved value, error *)
  interpolate :
    RawConfig → gmap string (gmap string Val) → Err + ResourceConfig;
  (* the resolved value read as a mapping from variable name to value *)
  variableBlock : option ResourceConfig → Err + gmap string Val;
  (* (values, declared types found through path and tree) -> values, error *)
  coerceMapVariable :
    list string → Tree → gmap string Val → Err + gmap string Val;
  (* (values, declared types found through path and tree) -> error *)
  typeCheckVariable : list string → Tree → gmap string Val → option Err;
}.

(** What a pipeline run reads and writes: the variable-value table owned by
    the walker, keyed by module name, and the two locals that [EvalTree]
    allocates and hands to its steps. *)
Record EvalState `{Externals} := {
  table : gmap string (gmap string Val);
  config : option ResourceConfig;
  variables : gmap string Val;
}.

(** Modelled from the spec: the commit of [EvalSetVariables] is defined in a
    sibling file.  Section 4.3, step 5: the entries of the scratch mapping
    are written into the table under the owning module; entries of that
    module which the scratch mapping does not name are kept. *)
Definition SetVariables `{Externals} (module : string)
  (vs : gmap string Val) (tbl : gmap string (gmap string Val))
  : gmap string (gmap string Val) :=
  <[module := vs ∪ default ∅ (tbl !! module)]> tbl.

(** Modelled from the spec: the [Eval] methods of the node types are defined
    in sibling files.  Section 4.3: the no-op step does nothing; a sequence
    runs its steps strictly in order and the first failure aborts the
    remaining ones and is the result of the sequence; steps 1 to 4 write only
    the scratch locals; step 5 writes the table.  The first component of the
    result is Go's [error] ([None] is [nil]). *)
Fixpoint Eval `{Collaborators} (n : EvalNode) (s : EvalState)
  : option Err * EvalState :=
  match n with
  | EvalNoop => (None, s)
  | EvalSequence nodes =>
      (fix run (nodes : list EvalNode) (s : EvalState) :=
         match nodes with
         | [] => (None, s)
         | n' :: nodes' =>
             match Eval n' s with
             | (None, s') => run nodes' s'
             | (Some e, s') => (Some e, s')
             end
         end) nodes s
  | EvalInterpolate cfg =>
      match interpolate cfg (table s) with
      | inl e => (Some e, s)
      | inr rc =>
          (None, {| table := table s; config := Some rc;
                    variables := variables s |})
      end
  | EvalVariableBlock =>
      match variableBlock (config s) with
      | inl e => (Some e, s)
      | inr vs =>
          (None, {| table := table s; config := config s; variables := vs |})
      end
  | EvalCoerceMapVariable path tree =>
      match coerceMapVariable path tree (variables s) with
      | inl e => (Some e, s)
      | inr vs =>
          (None, {| table := table s; config := config s; variables := vs |})
      end
  | EvalTypeCheckVariable path tree =>
      match typeCheckVariable path tree (variables s) with
      | Some e => (Some e, s)
      | None => (None, s)
      end
  | EvalSetVariables module =>
      (None, {| table := SetVariables module (variables s) (table s);
                config := config s; variables := variables s |})
  end.

(** The steps that write only the scratch locals of the pipeline. *)
Definition scratch_step `{Externals} (n : EvalNode) : bool :=
  match n with
  | EvalNoop | EvalInterpolate _ | EvalVariableBlock
  | EvalCoerceMapVariable _ _ | EvalTypeCheckVariable _ _ => true
  | EvalSequence _ | EvalSetVariables _ => false
  end.

(** The state in which the walker starts a pipeline built by [EvalTree]:
    [var config *ResourceConfig] is nil and [variables] is the empty map. *)
Definition fresh `{Externals} (tbl : gmap string (gmap string Val))
  : EvalState :=
  {| table := tbl; config := None; variables := ∅ |}.

End terraform.

(** ** A concrete instance

    One choice of the abstract types, helpers and collaborators, small enough
    to evaluate, on which the statements below are exercised. *)

Module sample.
Import terraform.

(** Two kinds of reference: to a user variable, and the count index, which
    names no vertex. *)
Inductive Reference :=
| UserVariable (name : string)
| CountVariable.

(** Declared types of variables. *)
Inductive DeclaredType := TypeString | TypeNumber.

#[global] Instance externals : Externals := {
  InterpolatedVariable := Reference;
  RawBody := gmap string string;
  Tree := gmap string DeclaredType;
  ResourceConfig := gmap string string;
  Val := string;
  Err := string;
}.

(** Modelled from the spec: [varNameForVar] is defined in a sibling file.
    Section 4.2: a reference to a variable is translated into that variable's
    dependable name [var.<name>]; a reference without a discoverable name
    yields no name. *)
Definition varNameForVar (v : Reference) : string :=
  match v with
  | UserVariable name => "var." +:+ name
  | CountVariable => ""
  end.

(** Modelled from the spec: [modulePrefixStr] is defined in a sibling file.
    Section 4.5 fixes only that it renders a module path as a name prefix;
    here every segment below the root is rendered in the [module.<name>]
    form of the address model and the parts are joined with dots. *)
Definition modulePrefixStr (p : list string) : string :=
  String.concat "." (flat_map (λ seg, ["module"; seg]) (tail p)).

#[global] Instance helpers : Helpers := {
  terraform.varNameForVar := varNameForVar;
  terraform.modulePrefixStr := modulePrefixStr;
}.

Definition is_digit (a : Ascii.ascii) : bool :=
  ((48 <=? Ascii.nat_of_ascii a) && (Ascii.nat_of_ascii a <=? 57))%nat.

Fixpoint numeric (s : string) : bool :=
  match s with
  | EmptyString => true
  | String a s' => is_digit a && numeric s'
  end.

(** Interpolation fails when a referenced user variable has no value yet in
    the root slot of the table. *)
Definition interpolate (cfg : RawConfig)
  (tbl : gmap string (gmap string string)) : string + gmap string string :=
  if forallb
       (λ kv, match snd kv with
              | UserVariable x =>
                  bool_decide (is_Some (default ∅ (tbl !! "root") !! x))
              | CountVariable => true
              end)
       (map_to_list (Variables cfg))
  then inr (Raw cfg)
  else inl "unknown variable".

Definition variableBlock (rc : option (gmap string string))
  : string + gmap string string :=
  match rc with
  | Some m => inr m
  | None => inl "no configuration"
  end.

Definition coerceMapVariable (path : list string)
  (tree : gmap string DeclaredType) (vs : gmap string string)
  : string + gmap string string := inr vs.

(** Type checking fails when a variable declared numeric holds a value that
    is not a numeral. *)
Definition typeCheckVariable (path : list string)
  (tree : gmap string DeclaredType) (vs : gmap string string)
  : option string :=
  if forallb
       (λ kv, match tree !! fst kv with
              | Some TypeNumber => numeric (snd kv)
              | _ => true
              end)
       (map_to_list vs)
  then None
  else Some "type mismatch".

#[global] Instance collaborators : Collaborators := {
  terraform.interpolate := interpolate;
  terraform.variableBlock := variableBlock;
  terraform.coerceMapVariable := coerceMapVariable;
  terraform.typeCheckVariable := typeCheckVariable;
}.

(** The declaration [variable "region"] set from the parent module with the
    value "prod-west" and a reference to [var.env]. *)
Definition region_value : RawConfig :=
  {| Raw := {[ "region" := "prod-west" ]};
     Variables := {[ "var.env" := UserVariable "env";
                     "count.index" := CountVariable ]} |}.

Definition region (ty : DeclaredType) : GraphNodeConfigVariable.t :=
  {| GraphNodeConfigVariable.Variable_ := {| Name := "region" |};
     GraphNodeConfigVariable.Module_ := "child";
     GraphNodeConfigVariable.Value := Some region_value;
     GraphNodeConfigVariable.ModuleTree := {[ "region" := ty ]};
     GraphNodeConfigVariable.ModulePath := ["root"; "child"] |}.

(** The same declaration with nothing setting it at this graph position. *)
Definition unset : GraphNodeConfigVariable.t :=
  {| GraphNodeConfigVariable.Variable_ := {| Name := "region" |};
     GraphNodeConfigVariable.Module_ := "root";
     GraphNodeConfigVariable.Value := None;
     GraphNodeConfigVariable.ModuleTree := ∅;
     GraphNodeConfigVariable.ModulePath := ["root"] |}.

Definition grandchild_path : list string := ["root"; "child"; "grandchild"].
Definition child_path : list string := ["root"; "child"].

Definition flat (p : list string) : GraphNodeConfigVariableFlat.t :=
  {| GraphNodeConfigVariableFlat.GraphNodeConfigVariable_ := region TypeString;
     GraphNodeConfigVariableFlat.PathValue := p |}.

(** A table in which [var.env] of the root module is already committed. *)
Definition env_committed : gmap string (gmap string string) :=
  {[ "root" := {[ "env" := "prod" ]} ]}.

(** A source vertex without the count capability and two with it. *)
Definition plain_vertex : Vertex :=
  {| VertexName := "aws_instance.web"; asGraphNodeCountDependent := None |}.

Definition counted_vertex (names : list string) : Vertex :=
  {| VertexName := "aws_instance.web";
     asGraphNodeCountDependent := Some {| CountDependentOn := names |} |}.

End sample.

(** ** A concrete instance key *)

Module sample_keys.
Import addrs.

(** The index of one instance of a repeated module call. *)
Inductive Key := IntKey (i : Z).

(** Modelled from the spec: the [String] methods of the key types are
    defined in another file of package [addrs].  Section 3: an index key is
    rendered inline as the bracketed index, [module.<name>[<key>]]. *)
Definition IntKey_String (k : Key) : string :=
  match k with
  | IntKey i =>
      "[" +:+ DecimalString.NilZero.string_of_int (Z.to_int i) +:+ "]"
  end.

#[global] Instance int_keys : InstanceKeyImpl Key := IntKey_String.

End sample_keys.

(** * Properties *)

(** ** Address rendering *)

Module addrs_facts.
Import addrs.

Section rendering.
Context {K : Type} `{!InstanceKeyImpl K}.

Lemma Call_String (n : string) :
  ModuleCall.String (Call_ n) = "module." +:+ n.
Proof. reflexivity. Qed.

Lemma Instance_NoKey_String (c : ModuleCall.t) :
  ModuleCallInstance.String (Instance c (NoKey (K:=K))) = ModuleCall.String c.
Proof. reflexivity. Qed.

(** The format ["module.%s%s"] applied to the call's name and the key is the
    call's own rendering followed by the key's: the literal prefix is
    consumed by computation, which leaves the same string on both sides. *)
Lemma Instance_key_String (c : ModuleCall.t) (k : K) :
  ModuleCallInstance.String (Instance c (Some k))
  = ModuleCall.String c +:+ key_String k.
Proof. destruct c as [n]. reflexivity. Qed.

Lemma Output_String (i : ModuleCallInstance.t K) (o : string) :
  ModuleCallOutput.String (Output i o)
  = ModuleCallInstance.String i +:+ "." +:+ o.
Proof. reflexivity. Qed.

(** C8.  Rendering of addresses: a call renders as ["module."] followed by
    its name; an instance without key renders as its call; an instance with
    key [k] renders as its call followed by the rendering of [k]; an output
    renders as its instance, a dot and the output name; and the call [db]
    instantiated without key renders as ["module.db"]. *)
Theorem address_rendering :
  (∀ n : string, ModuleCall.String (Call_ n) = "module." +:+ n)
  ∧ (∀ c : ModuleCall.t,
       ModuleCallInstance.String (Instance c (NoKey (K:=K)))
       = ModuleCall.String c)
  ∧ (∀ (c : ModuleCall.t) (k : K),
       ModuleCallInstance.String (Instance c (Some k))
       = ModuleCall.String c +:+ key_String k)
  ∧ (∀ (i : ModuleCallInstance.t K) (o : string),
       ModuleCallOutput.String (Output i o)
       = ModuleCallInstance.String i +:+ "." +:+ o)
  ∧ ModuleCallInstance.String (Instance (Call_ "db") (NoKey (K:=K)))
    = "module.db".
Proof.
  repeat apply conj; intros.
  - apply Call_String.
  - apply Instance_NoKey_String.
  - apply Instance_key_String.
  - apply Output_String.
  - reflexivity.
Qed.

End rendering.
End addrs_facts.

(** ** The configuration variable vertex *)

Module vertex_facts.
Import terraform.

Section destroy_edge.
Context `{Helpers}.

Lemma DestroyEdgeInclude_inner_elem (d : string) (names : list string) :
  GraphNodeConfigVariable.DestroyEdgeInclude_inner d names = true
  ↔ d ∈ names.
Proof.
  induction names as [|d2 names IH]; simpl.
  - split; [discriminate | intros Hin; by apply not_elem_of_nil in Hin].
  - destruct (String.eqb_spec d d2) as [->|Hne].
    + split; [intros _; left | reflexivity].
    + rewrite IH, elem_of_cons. split; [by right | by intros [?|?]].
Qed.

Lemma DestroyEdgeInclude_outer_elem (ds names : list string) :
  GraphNodeConfigVariable.DestroyEdgeInclude_outer ds names = true
  ↔ ∃ d, d ∈ ds ∧ d ∈ names.
Proof.
  induction ds as [|d ds IH]; simpl.
  - split; [discriminate | intros (d & Hin & _); by apply not_elem_of_nil in Hin].
  - destruct (GraphNodeConfigVariable.DestroyEdgeInclude_inner d names)
      eqn:Hinner.
    + apply DestroyEdgeInclude_inner_elem in Hinner.
      split; [intros _; exists d; split; [left | done] | reflexivity].
    + rewrite IH. split.
      * intros (d' & Hd' & Hn). exists d'. split; [by right | done].
      * intros (d' & Hd' & Hn). apply elem_of_cons in Hd' as [->|Hd'].
        -- apply DestroyEdgeInclude_inner_elem in Hn. congruence.
        -- by exists d'.
Qed.

(** Two lists share an element exactly when the sets of their elements
    intersect. *)
Lemma share_elem_intersection (ds names : list string) :
  (∃ d, d ∈ ds ∧ d ∈ names)
  ↔ (list_to_set ds ∩ list_to_set names : gset string) ≠ ∅.
Proof.
  split.
  - intros (d & Hd & Hn). apply (non_empty_inhabited_L d).
    apply elem_of_intersection. split; by apply elem_of_list_to_set.
  - intros Hne. apply set_choose_L in Hne as [d Hd].
    apply elem_of_intersection in Hd as [Hd Hn].
    apply elem_of_list_to_set in Hd, Hn. by exists d.
Qed.

(** C1.  The destroy-edge decision is [true] exactly when the source vertex
    exposes the count capability and the names it counts on intersect the
    dependable names of this vertex; without the capability, or without a
    common name, it is [false]. *)
Theorem DestroyEdgeInclude_spec (n : GraphNodeConfigVariable.t) (v : Vertex) :
  (GraphNodeConfigVariable.DestroyEdgeInclude n v = true
   ↔ ∃ cv, asGraphNodeCountDependent v = Some cv
          ∧ (list_to_set (CountDependentOn cv)
             ∩ list_to_set (GraphNodeConfigVariable.DependableName n)
             : gset string) ≠ ∅)
  ∧ (asGraphNodeCountDependent v = None →
     GraphNodeConfigVariable.DestroyEdgeInclude n v = false)
  ∧ (∀ cv, asGraphNodeCountDependent v = Some cv →
       (list_to_set (CountDependentOn cv)
        ∩ list_to_set (GraphNodeConfigVariable.DependableName n)
        : gset string) = ∅ →
       GraphNodeConfigVariable.DestroyEdgeInclude n v = false).
Proof.
  unfold GraphNodeConfigVariable.DestroyEdgeInclude.
  destruct (asGraphNodeCountDependent v) as [cv|]; (split; [|split]).
  - rewrite DestroyEdgeInclude_outer_elem, share_elem_intersection.
    split; [intros Hne; by exists cv | by intros (cv' & [= <-] & Hne)].
  - discriminate.
  - intros cv' [= <-] Hempty. apply not_true_is_false.
    rewrite DestroyEdgeInclude_outer_elem, share_elem_intersection. congruence.
  - split; [discriminate | by intros (cv & ? & _)].
  - reflexivity.
  - discriminate.
Qed.

End destroy_edge.
Section targeting.
Context `{Helpers}.

(** C9.  Whatever the declaration, raw value, module, tree and path of a
    configuration variable vertex, it asks to be removed when it is not
    targeted. *)
Theorem RemoveIfNotTargeted_always (n : GraphNodeConfigVariable.t) :
  GraphNodeConfigVariable.RemoveIfNotTargeted n = true
  ∧ ∀ (variable : config_Variable) (module : string)
      (value : option RawConfig) (tree : Tree) (path : list string),
      GraphNodeConfigVariable.RemoveIfNotTargeted
        (GraphNodeConfigVariable.mk variable module value tree path) = true.
Proof. split; reflexivity. Qed.

End targeting.

Section dependencies.
Context `{Helpers}.

Local Abbreviation translated vars :=
  (filter (λ vn : string, vn ≠ "") ((λ kv, varNameForVar (snd kv)) <$> vars)).

(** The range loop appends to its accumulator the non-empty translations of
    the references, in visiting order. *)
Lemma DependentOn_range_filter
  (vars : list (string * InterpolatedVariable)) (result : list string) :
  GraphNodeConfigVariable.DependentOn_range vars result
  = (result ++ translated vars)%list.
Proof.
  revert result. induction vars as [|[k v] vars IH]; intros result; simpl.
  - by rewrite app_nil_r.
  - rewrite filter_cons. simpl.
    destruct (String.eqb_spec (varNameForVar v) "") as [Heq|Hne].
    + rewrite IH. by rewrite decide_False by (intros Hn; by apply Hn).
    + rewrite IH, decide_True by done. by rewrite <- app_assoc.
Qed.

Lemma elem_of_translated
  (m : gmap string InterpolatedVariable)
  (vars : list (string * InterpolatedVariable)) (x : string) :
  vars ≡ₚ map_to_list m →
  x ∈ translated vars
  ↔ x ≠ "" ∧ ∃ k v, m !! k = Some v ∧ varNameForVar v = x.
Proof.
  intros Hperm. rewrite list_elem_of_filter, list_elem_of_fmap. split.
  - intros [Hne ([k v] & -> & Hin)]. split; [done|].
    exists k, v. split; [|done].
    apply elem_of_map_to_list. by rewrite <- Hperm.
  - intros [Hne (k & v & Hlook & <-)]. split; [done|].
    exists (k, v). split; [done|].
    rewrite Hperm. by apply elem_of_map_to_list.
Qed.

(** Without a raw value there is nothing to depend on. *)
Lemma DependentOn_absent (n : GraphNodeConfigVariable.t) :
  GraphNodeConfigVariable.Value n = None →
  GraphNodeConfigVariable.DependentOn n = [].
Proof.
  intros Habsent.
  unfold GraphNodeConfigVariable.DependentOn,
    GraphNodeConfigVariable.DependentOn_visiting.
  by rewrite Habsent.
Qed.

(** C3.  With a raw value present, and whatever the order in which the range
    statement visits the references, [DependentOn] returns the translations
    of the references, those with an empty translation left out: the result
    is that list in visiting order, its members are exactly the non-empty
    translations of the references of the raw value, and the order of the
    visit changes the result only by a permutation.  No error is part of the
    result. *)
Theorem DependentOn_present
  (n : GraphNodeConfigVariable.t) (rc : RawConfig)
  (order : gmap string InterpolatedVariable →
           list (string * InterpolatedVariable)) :
  GraphNodeConfigVariable.Value n = Some rc →
  order (Variables rc) ≡ₚ map_to_list (Variables rc) →
  GraphNodeConfigVariable.DependentOn_visiting order n
    = translated (order (Variables rc))
  ∧ (∀ x, x ∈ GraphNodeConfigVariable.DependentOn_visiting order n
          ↔ x ≠ "" ∧ ∃ k v, Variables rc !! k = Some v
                            ∧ varNameForVar v = x)
  ∧ GraphNodeConfigVariable.DependentOn_visiting order n
    ≡ₚ GraphNodeConfigVariable.DependentOn n
  ∧ GraphNodeConfigVariable.DependentOn n
    = translated (map_to_list (Variables rc)).
Proof.
  intros Hpresent Hperm.
  unfold GraphNodeConfigVariable.DependentOn,
    GraphNodeConfigVariable.DependentOn_visiting.
  rewrite Hpresent, !DependentOn_range_filter. simpl.
  split; [done|]. split; [|split; [|done]].
  - intros x. by apply elem_of_translated.
  - by rewrite Hperm.
Qed.

End dependencies.

Section pipeline.
Context `{Helpers} `{!Collaborators}.

Lemma Eval_sequence_cons (n : EvalNode) (nodes : list EvalNode)
  (s : EvalState) :
  Eval (EvalSequence (n :: nodes)) s
  = match Eval n s with
    | (None, s') => Eval (EvalSequence nodes) s'
    | (Some e, s') => (Some e, s')
    end.
Proof. reflexivity. Qed.

Lemma Eval_sequence_app (pre post : list EvalNode) (s : EvalState) :
  Eval (EvalSequence (pre ++ post)) s
  = match Eval (EvalSequence pre) s with
    | (None, s1) => Eval (EvalSequence post) s1
    | (Some e, s1) => (Some e, s1)
    end.
Proof.
  revert s. induction pre as [|n pre IH]; intros s; [reflexivity|].
  rewrite <- app_comm_cons, !Eval_sequence_cons.
  destruct (Eval n s) as [[e|] s']; [reflexivity | apply IH].
Qed.

(** The first failure is the result of the sequence: the steps after it do
    not run. *)
Lemma Eval_sequence_abort (pre post : list EvalNode) (step : EvalNode)
  (s s1 s2 : EvalState) (e : Err) :
  Eval (EvalSequence pre) s = (None, s1) →
  Eval step s1 = (Some e, s2) →
  Eval (EvalSequence (pre ++ step :: post)) s = (Some e, s2).
Proof.
  intros Hpre Hstep.
  by rewrite Eval_sequence_app, Hpre, Eval_sequence_cons, Hstep.
Qed.

Lemma scratch_step_keeps_table (n : EvalNode) (s : EvalState) :
  scratch_step n = true → table (snd (Eval n s)) = table s.
Proof.
  destruct n; simpl; try discriminate; intros _; try reflexivity.
  - by destruct (interpolate _ _).
  - by destruct (variableBlock _).
  - by destruct (coerceMapVariable _ _ _).
  - by destruct (typeCheckVariable _ _ _).
Qed.

Lemma scratch_steps_keep_table (nodes : list EvalNode) (s : EvalState) :
  forallb scratch_step nodes = true →
  table (snd (Eval (EvalSequence nodes) s)) = table s.
Proof.
  revert s. induction nodes as [|n nodes IH]; intros s; [reflexivity|].
  simpl forallb. intros [Hn Hnodes]%andb_prop.
  rewrite Eval_sequence_cons.
  pose proof (scratch_step_keeps_table n s Hn) as Hstep.
  destruct (Eval n s) as [[e|] s']; simpl in Hstep; [done|].
  by rewrite IH, Hstep.
Qed.

(** What the commit does to the table: every entry of the scratch mapping is
    readable under the module, and the other modules are as before. *)
Lemma SetVariables_lookup (module : string) (vs : gmap string Val)
  (tbl : gmap string (gmap string Val)) :
  (∀ k v, vs !! k = Some v →
     (SetVariables module vs tbl !! module) ≫= (λ slot, slot !! k) = Some v)
  ∧ (∀ other, other ≠ module →
       SetVariables module vs tbl !! other = tbl !! other).
Proof.
  unfold SetVariables. split.
  - intros k v Hk. rewrite lookup_insert_eq. simpl.
    by apply lookup_union_Some_l.
  - intros other Hne. by rewrite lookup_insert_ne.
Qed.

(** C2.  A vertex without raw value depends on nothing, whatever the
    visiting order, and its pipeline is the no-op step, whose run reports no
    error and leaves the state, hence the variable-value table, as it
    was. *)
Theorem absent_value_noop (n : GraphNodeConfigVariable.t) :
  GraphNodeConfigVariable.Value n = None →
  GraphNodeConfigVariable.DependentOn n = []
  ∧ (∀ order, GraphNodeConfigVariable.DependentOn_visiting order n = [])
  ∧ GraphNodeConfigVariable.EvalTree n = EvalNoop
  ∧ (∀ s, Eval (GraphNodeConfigVariable.EvalTree n) s = (None, s))
  ∧ (∀ s, table (snd (Eval (GraphNodeConfigVariable.EvalTree n) s))
          = table s).
Proof.
  intros Habsent.
  unfold GraphNodeConfigVariable.DependentOn,
    GraphNodeConfigVariable.DependentOn_visiting,
    GraphNodeConfigVariable.EvalTree.
  rewrite Habsent. by repeat split.
Qed.

(** C4.  With a raw value present, the pipeline is the sequence of exactly
    five steps: interpolate the raw value, extract the variable block,
    coerce, type-check, and commit under the owning module; the commit is
    the last step and the only one that writes the table. *)
Theorem EvalTree_present (n : GraphNodeConfigVariable.t) (rc : RawConfig) :
  GraphNodeConfigVariable.Value n = Some rc →
  ∃ nodes,
    GraphNodeConfigVariable.EvalTree n = EvalSequence nodes
    ∧ nodes = [ EvalInterpolate rc;
                EvalVariableBlock;
                EvalCoerceMapVariable (GraphNodeConfigVariable.ModulePath n)
                                      (GraphNodeConfigVariable.ModuleTree n);
                EvalTypeCheckVariable (GraphNodeConfigVariable.ModulePath n)
                                      (GraphNodeConfigVariable.ModuleTree n);
                EvalSetVariables (GraphNodeConfigVariable.Module_ n) ]
    ∧ length nodes = 5
    ∧ last nodes = Some (EvalSetVariables (GraphNodeConfigVariable.Module_ n))
    ∧ forallb scratch_step (take 4 nodes) = true
    ∧ (∀ s, table (snd (Eval (EvalSetVariables
                               (GraphNodeConfigVariable.Module_ n)) s))
            = SetVariables (GraphNodeConfigVariable.Module_ n)
                (variables s) (table s)).
Proof.
  intros Hpresent. unfold GraphNodeConfigVariable.EvalTree.
  rewrite Hpresent. eexists. by repeat split.
Qed.

(** A step with steps after it in the pipeline is one of the first four, so
    it and the steps before it write only the scratch locals. *)
Lemma before_commit (n : GraphNodeConfigVariable.t)
  (pre post : list EvalNode) (step : EvalNode) :
  GraphNodeConfigVariable.EvalTree n = EvalSequence (pre ++ step :: post) →
  post ≠ [] →
  forallb scratch_step pre = true ∧ scratch_step step = true.
Proof.
  unfold GraphNodeConfigVariable.EvalTree.
  destruct (GraphNodeConfigVariable.Value n) as [rc|]; [|discriminate].
  intros [= Hnodes] Hpost.
  destruct pre as [|n1 [|n2 [|n3 [|n4 [|n5 pre]]]]]; simplify_eq/=; try done.
  by destruct pre.
Qed.

(** C5.  When one of the steps before the commit fails, the steps before it
    having succeeded, the run of the pipeline ends there with that failure
    as its result, and the variable-value table is the one the run started
    with: the commit was not performed. *)
Theorem failure_skips_commit (n : GraphNodeConfigVariable.t)
  (pre post : list EvalNode) (step : EvalNode)
  (s s1 s2 : EvalState) (e : Err) :
  GraphNodeConfigVariable.EvalTree n = EvalSequence (pre ++ step :: post) →
  post ≠ [] →
  Eval (EvalSequence pre) s = (None, s1) →
  Eval step s1 = (Some e, s2) →
  Eval (GraphNodeConfigVariable.EvalTree n) s = (Some e, s2)
  ∧ table s2 = table s.
Proof.
  intros Htree Hpost Hpre Hstep.
  destruct (before_commit n pre post step Htree Hpost) as [Hscratch Hs].
  split.
  - rewrite Htree. by apply Eval_sequence_abort with s1.
  - pose proof (scratch_step_keeps_table step s1 Hs) as Hlast.
    pose proof (scratch_steps_keep_table pre s Hscratch) as Hfirst.
    rewrite Hstep in Hlast. rewrite Hpre in Hfirst. simpl in *. congruence.
Qed.

(** However a pipeline built by [EvalTree] fails, the table is the one it
    started with; and when it does not fail, the table is the commit of the
    final scratch mapping. *)
Lemma pipeline_result_table (n : GraphNodeConfigVariable.t)
  (s s' : EvalState) (r : option Err) :
  Eval (GraphNodeConfigVariable.EvalTree n) s = (r, s') →
  match r, GraphNodeConfigVariable.Value n with
  | Some _, _ | None, None => table s' = table s
  | None, Some _ =>
      table s' = SetVariables (GraphNodeConfigVariable.Module_ n)
                   (variables s') (table s)
  end.
Proof.
  unfold GraphNodeConfigVariable.EvalTree.
  destruct (GraphNodeConfigVariable.Value n) as [rc|]; simpl.
  - destruct (interpolate _ _); [by intros [= <- <-]|].
    destruct (variableBlock _); [by intros [= <- <-]|].
    destruct (coerceMapVariable _ _ _); [by intros [= <- <-]|].
    destruct (typeCheckVariable _ _ _); by intros [= <- <-].
  - by intros [= <- <-].
Qed.

End pipeline.

End vertex_facts.

(** ** The flattened variant *)

Module flat_facts.
Import terraform.

Lemma String_length_app (a b : string) :
  String.length (a +:+ b) = String.length a + String.length b.
Proof.
  induction a as [|c a IH]; [done|].
  change (S (String.length (a +:+ b)) = S (String.length a + String.length b)).
  by rewrite IH.
Qed.

(** Appending the same suffix to two strings gives equal strings only when
    the two are equal. *)
Lemma String_app_inj_r (a b c : string) : a +:+ c = b +:+ c → a = b.
Proof.
  revert b. induction a as [|x a IH]; intros [|y b] Heq.
  - done.
  - apply (f_equal String.length) in Heq.
    rewrite !String_length_app in Heq. simpl in Heq. lia.
  - apply (f_equal String.length) in Heq.
    rewrite !String_length_app in Heq. simpl in Heq. lia.
  - change (String x (a +:+ c) = String y (b +:+ c)) in Heq.
    injection Heq as -> Heq. f_equal. by apply IH.
Qed.

(** The slice expression [p[:len(p)-1]] is [p] without its last element. *)
Lemma take_pred_length_removelast {A : Type} (p : list A) :
  take (length p - 1) p = removelast p.
Proof.
  induction p as [|x [|y p] IH]; [done..|].
  simpl in *. rewrite Nat.sub_0_r in IH. by rewrite IH.
Qed.

Lemma modulePrefixList_empty (names : list string) :
  modulePrefixList names "" = names.
Proof. reflexivity. Qed.

Lemma modulePrefixList_nonempty (names : list string) (prefix : string) :
  prefix ≠ "" →
  modulePrefixList names prefix = (λ v, prefix +:+ "." +:+ v) <$> names.
Proof.
  intros Hne. unfold modulePrefixList.
  by destruct (String.eqb_spec prefix "").
Qed.

Section flat.
Context `{Helpers}.

Lemma Flat_Path_spec (f : GraphNodeConfigVariableFlat.t) :
  GraphNodeConfigVariableFlat.Path f
  = if decide (2 < length (GraphNodeConfigVariableFlat.PathValue f))%nat
    then removelast (GraphNodeConfigVariableFlat.PathValue f)
    else [].
Proof.
  unfold GraphNodeConfigVariableFlat.Path.
  rewrite take_pred_length_removelast.
  destruct (Nat.ltb_spec 2 (length (GraphNodeConfigVariableFlat.PathValue f)));
    case_decide; (done || lia).
Qed.

(** C6.  With more than two segments in the bound path, the dependency names
    of the flattened variant are the unflattened ones prefixed with the
    rendering of the parent path (the bound path without its last segment),
    each in the shape [<prefix>.<name>] when that rendering is not empty,
    and the reported path is the parent path; with two segments or fewer the
    dependency names are the unflattened ones and the reported path is
    empty. *)
Theorem Flat_DependentOn_Path (f : GraphNodeConfigVariableFlat.t) :
  ((2 < length (GraphNodeConfigVariableFlat.PathValue f))%nat →
     GraphNodeConfigVariableFlat.DependentOn f
     = modulePrefixList
         (GraphNodeConfigVariable.DependentOn
            (GraphNodeConfigVariableFlat.GraphNodeConfigVariable_ f))
         (modulePrefixStr
            (removelast (GraphNodeConfigVariableFlat.PathValue f)))
     ∧ (modulePrefixStr
          (removelast (GraphNodeConfigVariableFlat.PathValue f)) ≠ "" →
        GraphNodeConfigVariableFlat.DependentOn f
        = (λ name,
             modulePrefixStr
               (removelast (GraphNodeConfigVariableFlat.PathValue f))
             +:+ "." +:+ name)
          <$> GraphNodeConfigVariable.DependentOn
                (GraphNodeConfigVariableFlat.GraphNodeConfigVariable_ f))
     ∧ GraphNodeConfigVariableFlat.Path f
       = removelast (GraphNodeConfigVariableFlat.PathValue f))
  ∧ ((length (GraphNodeConfigVariableFlat.PathValue f) ≤ 2)%nat →
     GraphNodeConfigVariableFlat.DependentOn f
     = GraphNodeConfigVariable.DependentOn
         (GraphNodeConfigVariableFlat.GraphNodeConfigVariable_ f)
     ∧ GraphNodeConfigVariableFlat.Path f = []).
Proof.
  split; intros Hlen.
  - rewrite Flat_Path_spec, decide_True by done.
    unfold GraphNodeConfigVariableFlat.DependentOn.
    rewrite take_pred_length_removelast.
    destruct (Nat.ltb_spec 2
                (length (GraphNodeConfigVariableFlat.PathValue f))); [|lia].
    split; [done|]. split; [|done].
    intros Hne. by apply modulePrefixList_nonempty.
  - rewrite Flat_Path_spec, decide_False by lia.
    unfold GraphNodeConfigVariableFlat.DependentOn.
    destruct (Nat.ltb_spec 2
                (length (GraphNodeConfigVariableFlat.PathValue f))); [lia|].
    by rewrite modulePrefixList_empty.
Qed.

(** C7, as the code has it.  The name of the flattened variant is built from
    the whole bound path: it is the rendering of that path, a dot, and the
    unflattened name [var.<name>].  It equals the name built from the parent
    path only for a rendering that does not tell the bound path from its
    parent.  The parent path is what [Path] reports when the bound path has
    more than two segments; otherwise [Path] is empty. *)
Theorem Flat_Name_full_path (f : GraphNodeConfigVariableFlat.t) :
  GraphNodeConfigVariableFlat.Name f
  = modulePrefixStr (GraphNodeConfigVariableFlat.PathValue f)
    +:+ "." +:+ "var."
    +:+ Name (GraphNodeConfigVariable.Variable_
                (GraphNodeConfigVariableFlat.GraphNodeConfigVariable_ f))
  ∧ (GraphNodeConfigVariableFlat.Name f
     = modulePrefixStr (removelast (GraphNodeConfigVariableFlat.PathValue f))
       +:+ "." +:+ GraphNodeConfigVariable.Name
                     (GraphNodeConfigVariableFlat.GraphNodeConfigVariable_ f)
     ↔ modulePrefixStr (GraphNodeConfigVariableFlat.PathValue f)
       = modulePrefixStr
           (removelast (GraphNodeConfigVariableFlat.PathValue f)))
  ∧ GraphNodeConfigVariableFlat.Path f
    = if decide (2 < length (GraphNodeConfigVariableFlat.PathValue f))%nat
      then removelast (GraphNodeConfigVariableFlat.PathValue f)
      else [].
Proof.
  split; [reflexivity|]. split; [|apply Flat_Path_spec].
  unfold GraphNodeConfigVariableFlat.Name. split.
  - apply String_app_inj_r.
  - by intros ->.
Qed.

(** The flattened name is never the unflattened one: it is longer. *)
Lemma Flat_Name_not_base (f : GraphNodeConfigVariableFlat.t) :
  GraphNodeConfigVariableFlat.Name f
  ≠ GraphNodeConfigVariable.Name
      (GraphNodeConfigVariableFlat.GraphNodeConfigVariable_ f).
Proof.
  unfold GraphNodeConfigVariableFlat.Name. intros Heq.
  apply (f_equal String.length) in Heq.
  rewrite !String_length_app in Heq. simpl in Heq. lia.
Qed.

(** C10.  The destroy-edge decision of a flattened variant is the one of the
    embedded vertex: it holds exactly when the source vertex exposes the
    count capability and counts on the unflattened name [var.<name>].  The
    flattened variant's own dependable name is a different one, and a source
    vertex that counts on it alone is rejected. *)
Theorem Flat_DestroyEdgeInclude_base
  (f : GraphNodeConfigVariableFlat.t) (v : Vertex) :
  (GraphNodeConfigVariableFlat.DestroyEdgeInclude f v = true
   ↔ ∃ cv, asGraphNodeCountDependent v = Some cv
          ∧ "var." +:+ Name (GraphNodeConfigVariable.Variable_
                               (GraphNodeConfigVariableFlat.GraphNodeConfigVariable_ f))
            ∈ CountDependentOn cv)
  ∧ GraphNodeConfigVariableFlat.DestroyEdgeInclude f v
    = GraphNodeConfigVariable.DestroyEdgeInclude
        (GraphNodeConfigVariableFlat.GraphNodeConfigVariable_ f) v
  ∧ GraphNodeConfigVariableFlat.DependableName f
    ≠ GraphNodeConfigVariable.DependableName
        (GraphNodeConfigVariableFlat.GraphNodeConfigVariable_ f)
  ∧ (∀ cv, asGraphNodeCountDependent v = Some cv →
       CountDependentOn cv = GraphNodeConfigVariableFlat.DependableName f →
       GraphNodeConfigVariableFlat.DestroyEdgeInclude f v = false).
Proof.
  unfold GraphNodeConfigVariableFlat.DestroyEdgeInclude,
    GraphNodeConfigVariable.DestroyEdgeInclude.
  split; [|split; [done|split]].
  - destruct (asGraphNodeCountDependent v) as [cv|].
    + rewrite vertex_facts.DestroyEdgeInclude_outer_elem. split.
      * intros (d & Hd & ->%list_elem_of_singleton). by exists cv.
      * intros (cv' & [= <-] & Hin). eexists. split; [done|].
        by apply list_elem_of_singleton.
    + split; [discriminate | by intros (cv & ? & _)].
  - intros [= Heq]. by apply Flat_Name_not_base in Heq.
  - intros cv -> Hcount. apply not_true_is_false.
    rewrite vertex_facts.DestroyEdgeInclude_outer_elem, Hcount.
    intros (d & ->%list_elem_of_singleton & Hd%list_elem_of_singleton).
    by apply Flat_Name_not_base in Hd.
Qed.

End flat.
End flat_facts.

(** ** The statements at the concrete instance *)

Module examples.
Import terraform sample.

(** The three destroy-edge cases: a source that counts on [var.region], one
    that counts on another variable, one without the capability. *)
Lemma DestroyEdgeInclude_spec_witness :
  GraphNodeConfigVariable.DestroyEdgeInclude
    (region TypeString) (counted_vertex ["var.env"; "var.region"]) = true
  ∧ GraphNodeConfigVariable.DestroyEdgeInclude
      (region TypeString) (counted_vertex ["var.env"]) = false
  ∧ GraphNodeConfigVariable.DestroyEdgeInclude
      (region TypeString) plain_vertex = false.
Proof.
  repeat apply conj.
  - apply (proj1 (vertex_facts.DestroyEdgeInclude_spec
                    (region TypeString)
                    (counted_vertex ["var.env"; "var.region"]))).
    exists {| CountDependentOn := ["var.env"; "var.region"] |}.
    split; [reflexivity|]. vm_compute. discriminate.
  - apply (proj2 (proj2 (vertex_facts.DestroyEdgeInclude_spec
                           (region TypeString) (counted_vertex ["var.env"])))
             {| CountDependentOn := ["var.env"] |}).
    + reflexivity.
    + vm_compute. reflexivity.
  - apply (proj1 (proj2 (vertex_facts.DestroyEdgeInclude_spec
                           (region TypeString) plain_vertex))).
    reflexivity.
Defined.

Lemma absent_value_noop_witness :
  GraphNodeConfigVariable.DependentOn unset = []
  ∧ GraphNodeConfigVariable.EvalTree unset = EvalNoop
  ∧ Eval (GraphNodeConfigVariable.EvalTree unset) (fresh env_committed)
    = (None, fresh env_committed).
Proof.
  destruct (vertex_facts.absent_value_noop unset eq_refl)
    as (Hdeps & _ & Htree & Hrun & _).
  repeat apply conj; [exact Hdeps | exact Htree | apply Hrun].
Defined.

(** The raw value of [region] holds a reference to [var.env] and the count
    index; only the former has a name. *)
Lemma DependentOn_present_witness :
  GraphNodeConfigVariable.DependentOn (region TypeString) = ["var.env"]
  ∧ "var.env" ∈ GraphNodeConfigVariable.DependentOn (region TypeString).
Proof.
  destruct (vertex_facts.DependentOn_present
              (region TypeString) region_value map_to_list eq_refl
              (reflexivity _))
    as (_ & Hmem & _ & Hlist).
  split.
  - rewrite Hlist. vm_compute. reflexivity.
  - apply Hmem. split; [discriminate|].
    exists "var.env", (UserVariable "env"). split; vm_compute; reflexivity.
Defined.

Lemma EvalTree_present_witness :
  ∃ nodes,
    GraphNodeConfigVariable.EvalTree (region TypeNumber) = EvalSequence nodes
    ∧ length nodes = 5
    ∧ last nodes = Some (EvalSetVariables "child").
Proof.
  destruct (vertex_facts.EvalTree_present
              (region TypeNumber) region_value eq_refl)
    as (nodes & Htree & _ & Hlen & Hlast & _).
  exists nodes. repeat apply conj; [exact Htree | exact Hlen | exact Hlast].
Defined.

(** The failure scenario: [region] is declared numeric and resolves to
    "prod-west"; the pipeline fails at the type check and the table is the
    one the walker passed in. *)
Lemma failure_skips_commit_witness :
  ∃ s2,
    Eval (GraphNodeConfigVariable.EvalTree (region TypeNumber))
      (fresh env_committed) = (Some "type mismatch", s2)
    ∧ table s2 = env_committed.
Proof.
  eexists.
  apply (@vertex_facts.failure_skips_commit externals collaborators
           (region TypeNumber)
           [ EvalInterpolate region_value;
             EvalVariableBlock;
             EvalCoerceMapVariable child_path {[ "region" := TypeNumber ]} ]
           [ EvalSetVariables "child" ]
           (EvalTypeCheckVariable child_path {[ "region" := TypeNumber ]})
           (@fresh externals env_committed)
           (@Build_EvalState externals env_committed
              (Some {[ "region" := "prod-west" ]})
              {[ "region" := "prod-west" ]})).
  - reflexivity.
  - discriminate.
  - vm_compute. reflexivity.
  - vm_compute. reflexivity.
Defined.

Lemma Flat_DependentOn_Path_witness :
  (GraphNodeConfigVariableFlat.DependentOn (flat grandchild_path)
   = ["module.child.var.env"]
   ∧ GraphNodeConfigVariableFlat.Path (flat grandchild_path)
     = ["root"; "child"])
  ∧ (GraphNodeConfigVariableFlat.DependentOn (flat child_path) = ["var.env"]
     ∧ GraphNodeConfigVariableFlat.Path (flat child_path) = []).
Proof.
  split.
  - destruct (proj1 (flat_facts.Flat_DependentOn_Path (flat grandchild_path)))
      as (_ & Hmap & Hpath); [simpl; lia|].
    split; [|exact Hpath].
    rewrite Hmap; [vm_compute; reflexivity | vm_compute; discriminate].
  - destruct (proj2 (flat_facts.Flat_DependentOn_Path (flat child_path)))
      as (Hdeps & Hpath); [simpl; lia|].
    split; [rewrite Hdeps; vm_compute; reflexivity | exact Hpath].
Defined.

(** The two candidate names at the path root, child, grandchild. *)
Example Flat_Name_at_grandchild :
  GraphNodeConfigVariableFlat.Name (flat grandchild_path)
  = "module.child.module.grandchild.var.region"
  ∧ terraform.modulePrefixStr (removelast grandchild_path) +:+ "."
    +:+ GraphNodeConfigVariable.Name
          (GraphNodeConfigVariableFlat.GraphNodeConfigVariable_
             (flat grandchild_path))
    = "module.child.var.region".
Proof. split; reflexivity. Qed.

(** C7 as stated fails: at the path root, child, grandchild the name of the
    flattened variant is not the one built from the parent path root,
    child. *)
Lemma Flat_Name_not_from_parent_path :
  GraphNodeConfigVariableFlat.Name (flat grandchild_path)
  ≠ terraform.modulePrefixStr (removelast grandchild_path) +:+ "."
    +:+ GraphNodeConfigVariable.Name
          (GraphNodeConfigVariableFlat.GraphNodeConfigVariable_
             (flat grandchild_path)).
Proof. discriminate. Qed.

(** A source vertex that counts on the flattened name of the variant is
    rejected; one that counts on the unflattened name is kept. *)
Lemma Flat_DestroyEdgeInclude_base_witness :
  GraphNodeConfigVariableFlat.DestroyEdgeInclude (flat grandchild_path)
    (counted_vertex ["module.child.module.grandchild.var.region"]) = false
  ∧ GraphNodeConfigVariableFlat.DestroyEdgeInclude (flat grandchild_path)
      (counted_vertex ["var.region"]) = true.
Proof.
  split.
  - apply (proj2 (proj2 (proj2
             (flat_facts.Flat_DestroyEdgeInclude_base (flat grandchild_path)
                (counted_vertex
                   ["module.child.module.grandchild.var.region"]))))
             {| CountDependentOn :=
                  ["module.child.module.grandchild.var.region"] |});
      reflexivity.
  - apply (proj1 (flat_facts.Flat_DestroyEdgeInclude_base
                    (flat grandchild_path) (counted_vertex ["var.region"]))).
    exists {| CountDependentOn := ["var.region"] |}.
    split; [reflexivity | by left].
Defined.

(** The end-to-end scenario: with [var.env] committed, the pipeline of
    [region] declared as a string runs to its end and commits the value
    under the owning module. *)
Example region_committed :
  let r := Eval (GraphNodeConfigVariable.EvalTree (region TypeString))
             (fresh env_committed) in
  fst r = None
  ∧ table (snd r) !! "child" = Some {[ "region" := "prod-west" ]}
  ∧ table (snd r) !! "root" = Some {[ "env" := "prod" ]}.
Proof. vm_compute. by repeat split. Qed.

(** Before [var.env] is committed the interpolation fails and nothing is
    written. *)
Example region_too_early :
  Eval (GraphNodeConfigVariable.EvalTree (region TypeString)) (fresh ∅)
  = (Some "unknown variable", fresh ∅).
Proof. vm_compute. reflexivity. Qed.

(** Flattening never fails and binds the given path. *)
Example Flatten_binds_path :
  Flatten (region TypeString) grandchild_path = inr (flat grandchild_path).
Proof. reflexivity. Qed.

End examples.

(** * Further properties of the address model *)

Module addrs_more.
Import addrs.

Lemma String_app_assoc (a b c : string) : (a +:+ b) +:+ c = a +:+ (b +:+ c).
Proof.
  induction a as [|x a IH]; [done|].
  change (String x ((a +:+ b) +:+ c) = String x (a +:+ (b +:+ c))).
  by rewrite IH.
Qed.

Lemma String_app_nil_r (a : string) : a +:+ "" = a.
Proof.
  induction a as [|x a IH]; [done|].
  change (String x (a +:+ "") = String x a). by rewrite IH.
Qed.

(** A string is not changed by a suffix only when the suffix is empty. *)
Lemma String_app_fixed (a b : string) : a +:+ b = a ↔ b = "".
Proof.
  split; [|intros ->; apply String_app_nil_r].
  rewrite <- (String_app_nil_r a) at 2. apply (inj (String.app a)).
Qed.

Lemma String_prefix_app (a b : string) : String.prefix a (a +:+ b) = true.
Proof.
  induction a as [|x a IH]; [by destruct b|].
  change (String.prefix (String x a) (String x (a +:+ b)) = true). simpl.
  by destruct (Ascii.ascii_dec x x).
Qed.

Section rendering.
Context {K : Type} `{!InstanceKeyImpl K}.

(** X1.  Two module calls that render the same are the same call. *)
Theorem ModuleCall_String_inj (c1 c2 : ModuleCall.t) :
  ModuleCall.String c1 = ModuleCall.String c2 → c1 = c2.
Proof.
  destruct c1 as [n1], c2 as [n2]. unfold ModuleCall.String. simpl.
  by intros ->%(inj (String.app "module.")).
Qed.

(** X2.  Instances of one call: two keyed instances render the same exactly
    when their keys render the same, and a keyed instance renders as the
    instance without key exactly when its key renders as the empty
    string. *)
Theorem Instance_String_same_call (c : ModuleCall.t) (k1 k2 : K) :
  (ModuleCallInstance.String (Instance c (Some k1))
   = ModuleCallInstance.String (Instance c (Some k2))
   ↔ key_String k1 = key_String k2)
  ∧ (ModuleCallInstance.String (Instance c (Some k1))
     = ModuleCallInstance.String (Instance c (NoKey (K:=K)))
     ↔ key_String k1 = "").
Proof.
  rewrite !addrs_facts.Instance_key_String, addrs_facts.Instance_NoKey_String.
  split.
  - split; [apply (inj (String.app _)) | by intros ->].
  - apply String_app_fixed.
Qed.

(** X3.  Outputs of one instance render the same only when they have the
    same name. *)
Theorem Output_String_inj_name
  (i : ModuleCallInstance.t K) (o1 o2 : string) :
  ModuleCallOutput.String (Output i o1) = ModuleCallOutput.String (Output i o2)
  ↔ o1 = o2.
Proof.
  rewrite !addrs_facts.Output_String. split; [|by intros ->].
  intros Heq%(inj (String.app _)). by apply (inj (String.app ".")) in Heq.
Qed.

(** X4.  The rendering does not determine the address: the output [o2] of
    the call named [n.o1] and the output [o1.o2] of the call named [n], both
    without key, are different addresses with the same rendering. *)
Theorem Output_String_ambiguous (n o1 o2 : string) :
  Output (Instance (Call_ (n +:+ "." +:+ o1)) (NoKey (K:=K))) o2
  ≠ Output (Instance (Call_ n) (NoKey (K:=K))) (o1 +:+ "." +:+ o2)
  ∧ ModuleCallOutput.String
      (Output (Instance (Call_ (n +:+ "." +:+ o1)) (NoKey (K:=K))) o2)
    = ModuleCallOutput.String
        (Output (Instance (Call_ n) (NoKey (K:=K))) (o1 +:+ "." +:+ o2)).
Proof.
  split.
  - intros [= Hname _]. apply String_app_fixed in Hname. discriminate.
  - rewrite !addrs_facts.Output_String, !addrs_facts.Instance_NoKey_String.
    unfold ModuleCall.String, Call_. simpl.
    by rewrite !String_app_assoc.
Qed.

(** X5.  Every rendering of an address, of a call, of an instance with or
    without key, and of an output, starts with ["module."]. *)
Theorem String_starts_with_module
  (c : ModuleCall.t) (i : ModuleCallInstance.t K) (o : ModuleCallOutput.t K) :
  String.prefix "module." (ModuleCall.String c) = true
  ∧ String.prefix "module." (ModuleCallInstance.String i) = true
  ∧ String.prefix "module." (ModuleCallOutput.String o) = true.
Proof.
  split; [apply String_prefix_app|]. split.
  - destruct i as [ic [ik|]]; apply String_prefix_app.
  - destruct o as [[oc [ok|]] on]; unfold ModuleCallOutput.String; simpl;
      unfold ModuleCall.String; rewrite String_app_assoc;
      apply String_prefix_app.
Qed.

End rendering.
End addrs_more.

(** * Further properties of the configuration variable vertex *)

Module vertex_more.
Import terraform.


Section names.
Context `{Helpers}.

(** X6.  The graph-facing name determines the declared name and conversely:
    two vertices have the same [Name], and the same [DependableName], exactly
    when their [VariableName] is the same. *)
Theorem Name_iff_VariableName (n1 n2 : GraphNodeConfigVariable.t) :
  (GraphNodeConfigVariable.Name n1 = GraphNodeConfigVariable.Name n2
   ↔ GraphNodeConfigVariable.VariableName n1
     = GraphNodeConfigVariable.VariableName n2)
  ∧ (GraphNodeConfigVariable.DependableName n1
     = GraphNodeConfigVariable.DependableName n2
     ↔ GraphNodeConfigVariable.VariableName n1
       = GraphNodeConfigVariable.VariableName n2).
Proof.
  unfold GraphNodeConfigVariable.DependableName,
    GraphNodeConfigVariable.Name, GraphNodeConfigVariable.VariableName.
  split; (split; [|by intros ->]).
  - apply (inj (String.app "var.")).
  - intros [= Heq]. exact Heq.
Qed.

(** X7.  The two nested loops of the destroy-edge decision amount to one
    membership test: with the capability present, the decision is whether
    the vertex's own name occurs among the names the source counts on, so
    that neither the order nor the repetition of those names matters, and an
    empty list is rejected. *)
Theorem DestroyEdgeInclude_membership
  (n : GraphNodeConfigVariable.t) (v : Vertex) :
  GraphNodeConfigVariable.DestroyEdgeInclude n v
  = match asGraphNodeCountDependent v with
    | None => false
    | Some cv =>
        bool_decide (GraphNodeConfigVariable.Name n ∈ CountDependentOn cv)
    end.
Proof.
  unfold GraphNodeConfigVariable.DestroyEdgeInclude.
  destruct (asGraphNodeCountDependent v) as [cv|]; [|done].
  apply Bool.eq_true_iff_eq.
  rewrite vertex_facts.DestroyEdgeInclude_outer_elem, bool_decide_eq_true.
  unfold GraphNodeConfigVariable.DependableName. split.
  - by intros (d & Hd & ->%list_elem_of_singleton).
  - intros Hin. eexists. split; [done | by apply list_elem_of_singleton].
Qed.

(** X8.  The destroy-edge decision of a vertex depends on its declared name
    and on nothing else: two vertices decide alike on every source vertex
    exactly when they declare the same variable name. *)
Theorem DestroyEdgeInclude_extensional (n1 n2 : GraphNodeConfigVariable.t) :
  (∀ v, GraphNodeConfigVariable.DestroyEdgeInclude n1 v
        = GraphNodeConfigVariable.DestroyEdgeInclude n2 v)
  ↔ GraphNodeConfigVariable.VariableName n1
    = GraphNodeConfigVariable.VariableName n2.
Proof.
  rewrite <- (proj1 (Name_iff_VariableName n1 n2)). split.
  - intros Hsame.
    specialize (Hsame
      {| VertexName := "";
         asGraphNodeCountDependent :=
           Some {| CountDependentOn := [GraphNodeConfigVariable.Name n1] |} |}).
    rewrite !DestroyEdgeInclude_membership in Hsame. simpl in Hsame.
    rewrite bool_decide_eq_true_2 in Hsame by apply list_elem_of_singleton, eq_refl.
    symmetry in Hsame. apply bool_decide_eq_true in Hsame.
    by apply list_elem_of_singleton in Hsame.
  - intros Hname v. rewrite !DestroyEdgeInclude_membership. by rewrite Hname.
Qed.

End names.

Section dependency_list.
Context `{Helpers}.

(** X9.  Whatever the order in which the references are visited, the empty
    name is never a dependency, and when every reference is visited once
    there are at most as many dependencies as the raw value has
    references. *)
Theorem DependentOn_bounds (n : GraphNodeConfigVariable.t)
  (order : gmap string InterpolatedVariable →
           list (string * InterpolatedVariable)) :
  ("" ∉ GraphNodeConfigVariable.DependentOn_visiting order n)
  ∧ (∀ rc, GraphNodeConfigVariable.Value n = Some rc →
       order (Variables rc) ≡ₚ map_to_list (Variables rc) →
       (length (GraphNodeConfigVariable.DependentOn_visiting order n)
        ≤ size (Variables rc))%nat).
Proof.
  unfold GraphNodeConfigVariable.DependentOn_visiting.
  destruct (GraphNodeConfigVariable.Value n) as [rc|]; split.
  - rewrite vertex_facts.DependentOn_range_filter. simpl.
    by intros [Hne _]%list_elem_of_filter.
  - intros rc' [= <-] Hperm.
    rewrite vertex_facts.DependentOn_range_filter. simpl.
    etrans; [apply length_filter|].
    by rewrite length_fmap, Hperm, length_map_to_list.
  - apply not_elem_of_nil.
  - discriminate.
Qed.

(** X10.  A vertex has no dependencies exactly when it has no raw value or
    none of the references of its raw value translates into a name; a raw
    value without references is one such case. *)
Theorem DependentOn_nil_iff (n : GraphNodeConfigVariable.t) :
  GraphNodeConfigVariable.DependentOn n = []
  ↔ ∀ rc k v,
      GraphNodeConfigVariable.Value n = Some rc →
      Variables rc !! k = Some v → varNameForVar v = "".
Proof.
  unfold GraphNodeConfigVariable.DependentOn,
    GraphNodeConfigVariable.DependentOn_visiting.
  destruct (GraphNodeConfigVariable.Value n) as [rc|]; [|by split].
  rewrite vertex_facts.DependentOn_range_filter. simpl. split.
  - intros Hnil rc' k v [= <-] Hlook.
    destruct (decide (varNameForVar v = "")) as [|Hne]; [done|].
    assert (varNameForVar v ∈ ([] : list string)) as Hin; [|by inversion Hin].
    rewrite <- Hnil.
    apply (vertex_facts.elem_of_translated (Variables rc)); [done|].
    split; [done|]. by exists k, v.
  - intros Hall. apply elem_of_nil_inv. intros x Hin.
    apply (vertex_facts.elem_of_translated (Variables rc)) in Hin
      as [Hne (k & v & Hlook & <-)]; [|done].
    by apply Hne, (Hall rc k v).
Qed.


End dependency_list.

Section pipeline_shape.
Context `{Helpers}.


End pipeline_shape.
End vertex_more.

(** * Further properties of the flattened variant *)

Module flat_more.
Import terraform.

Section flat.
Context `{Helpers}.

(** X13.  The reported path is an initial segment of the bound path, one
    segment shorter when the bound path has more than two segments and empty
    otherwise; so it is empty exactly for bound paths of at most two
    segments, and it never has exactly one segment. *)
Theorem Flat_Path_shape (f : GraphNodeConfigVariableFlat.t) :
  GraphNodeConfigVariableFlat.Path f
    `prefix_of` GraphNodeConfigVariableFlat.PathValue f
  ∧ length (GraphNodeConfigVariableFlat.Path f)
    = (if (2 <? length (GraphNodeConfigVariableFlat.PathValue f))%nat
       then length (GraphNodeConfigVariableFlat.PathValue f) - 1
       else 0)
  ∧ length (GraphNodeConfigVariableFlat.Path f) ≠ 1
  ∧ (GraphNodeConfigVariableFlat.Path f = []
     ↔ (length (GraphNodeConfigVariableFlat.PathValue f) ≤ 2)%nat).
Proof.
  unfold GraphNodeConfigVariableFlat.Path.
  destruct (Nat.ltb_spec 2 (length (GraphNodeConfigVariableFlat.PathValue f)))
    as [Hlong|Hshort].
  - split; [apply prefix_take|]. rewrite length_take.
    split; [lia|]. split; [lia|]. split; [|lia].
    intros Hnil%(f_equal length). rewrite length_take in Hnil.
    simpl in Hnil. lia.
  - split; [apply prefix_nil|]. simpl. by repeat split; try lia.
Qed.

(** X14.  Names of flattened variants.  Under path prefixes that render the
    same, two variants have the same name exactly when they wrap the same
    variable name; and two variants of the same variable name have the same
    name exactly when their path prefixes render the same. *)
Theorem Flat_Name_eq_iff (f1 f2 : GraphNodeConfigVariableFlat.t) :
  (modulePrefixStr (GraphNodeConfigVariableFlat.PathValue f1)
   = modulePrefixStr (GraphNodeConfigVariableFlat.PathValue f2) →
   (GraphNodeConfigVariableFlat.Name f1 = GraphNodeConfigVariableFlat.Name f2
    ↔ GraphNodeConfigVariable.VariableName
        (GraphNodeConfigVariableFlat.GraphNodeConfigVariable_ f1)
      = GraphNodeConfigVariable.VariableName
          (GraphNodeConfigVariableFlat.GraphNodeConfigVariable_ f2)))
  ∧ (GraphNodeConfigVariable.VariableName
       (GraphNodeConfigVariableFlat.GraphNodeConfigVariable_ f1)
     = GraphNodeConfigVariable.VariableName
         (GraphNodeConfigVariableFlat.GraphNodeConfigVariable_ f2) →
     (GraphNodeConfigVariableFlat.Name f1 = GraphNodeConfigVariableFlat.Name f2
      ↔ modulePrefixStr (GraphNodeConfigVariableFlat.PathValue f1)
        = modulePrefixStr (GraphNodeConfigVariableFlat.PathValue f2))).
Proof.
  unfold GraphNodeConfigVariableFlat.Name, GraphNodeConfigVariable.Name,
    GraphNodeConfigVariable.VariableName.
  split.
  - intros ->. split; [|by intros ->].
    intros Heq%(inj (String.app _)).
    apply (inj (String.app ".")) in Heq.
    by apply (inj (String.app "var.")) in Heq.
  - intros ->. split; [|by intros ->].
    apply flat_facts.String_app_inj_r.
Qed.

(** X15.  Flattening never fails.  The variants of one vertex at two paths
    take the same destroy-edge decisions, those of the vertex itself, ask
    like it to be removed when not targeted, and have the same name exactly
    when the two paths render as the same prefix. *)
Theorem Flatten_two_paths (n : GraphNodeConfigVariable.t)
  (p q : list string) :
  ∃ f1 f2,
    Flatten n p = inr f1 ∧ Flatten n q = inr f2
    ∧ (∀ v, GraphNodeConfigVariableFlat.DestroyEdgeInclude f1 v
            = GraphNodeConfigVariable.DestroyEdgeInclude n v
            ∧ GraphNodeConfigVariableFlat.DestroyEdgeInclude f2 v
              = GraphNodeConfigVariable.DestroyEdgeInclude n v)
    ∧ GraphNodeConfigVariableFlat.RemoveIfNotTargeted f1
      = GraphNodeConfigVariable.RemoveIfNotTargeted n
    ∧ (GraphNodeConfigVariableFlat.Name f1 = GraphNodeConfigVariableFlat.Name f2
       ↔ modulePrefixStr p = modulePrefixStr q).
Proof.
  eexists _, _. split; [reflexivity|]. split; [reflexivity|].
  split; [done|]. split; [done|].
  by apply (proj2 (Flat_Name_eq_iff
                     (GraphNodeConfigVariableFlat.mk n p)
                     (GraphNodeConfigVariableFlat.mk n q))).
Qed.

End flat.
End flat_more.

(** * The further properties at the concrete instance *)

Module more_examples.
Import addrs terraform sample sample_keys.

Lemma ModuleCall_String_inj_witness : Call_ "db" = ModuleCall.mk "db".
Proof. apply addrs_more.ModuleCall_String_inj. reflexivity. Defined.

(** The address of the spec's example with the index key 2. *)
Example db_2_addr :
  ModuleCallOutput.String (Output (Instance (Call_ "db") (Some (IntKey 2))) "addr")
  = "module.db[2].addr"
  ∧ ModuleCallInstance.String (Instance (Call_ "db") (Some (IntKey 2)))
    ≠ ModuleCallInstance.String (Instance (Call_ "db") (NoKey (K:=Key))).
Proof.
  split; [reflexivity|].
  intros Heq.
  by apply (proj2 (addrs_more.Instance_String_same_call
                     (Call_ "db") (IntKey 2) (IntKey 2))) in Heq.
Qed.

Lemma DependentOn_bounds_witness :
  ("" ∉ GraphNodeConfigVariable.DependentOn (region TypeString))
  ∧ (length (GraphNodeConfigVariable.DependentOn (region TypeString)) ≤ 2)%nat.
Proof.
  destruct (vertex_more.DependentOn_bounds (region TypeString) map_to_list)
    as [Hne Hlen].
  split; [exact Hne | exact (Hlen region_value eq_refl (reflexivity _))].
Defined.


Lemma Flat_Name_eq_iff_witness :
  GraphNodeConfigVariableFlat.Name (flat child_path)
  = GraphNodeConfigVariableFlat.Name
      (GraphNodeConfigVariableFlat.mk unset child_path)
  ∧ GraphNodeConfigVariableFlat.Name (flat child_path)
    ≠ GraphNodeConfigVariableFlat.Name (flat grandchild_path).
Proof.
  split.
  - apply (proj1 (flat_more.Flat_Name_eq_iff (flat child_path)
                    (GraphNodeConfigVariableFlat.mk unset child_path)));
      reflexivity.
  - intros Heq.
    apply (proj2 (flat_more.Flat_Name_eq_iff (flat child_path)
                    (flat grandchild_path))) in Heq;
      [discriminate Heq | reflexivity].
Defined.

End more_examples.
